(** * playwright.config.ts: the Playwright configuration of the test suite

    A shallow embedding of the configuration module.  The module reads the
    process environment (after [dotenv.config] has populated it from the
    [.env] file), computes three module-level constants and exports one
    configuration object built with object literals and spreads. *)

From stdpp Require Import gmap strings list fin_maps.

Open Scope string_scope.
Set Warnings "-register-all".

(** ** JavaScript values *)

(** The values that occur in the configuration object.  Objects are finite
    maps from property names to values; the order of the properties is not
    observable by any reader of the configuration. *)
Inductive JsValue :=
  | JsUndefined
  | JsNull
  | JsBool (b : bool)
  | JsNumber (n : Z)
  | JsString (s : string)
  | JsArray (l : list JsValue)
  | JsObject (o : gmap string JsValue).

(** The own properties that a spread [...v] copies into an object literal.
    The values spread by the configuration are objects by their TypeScript
    types; spreading [undefined] or [null] copies nothing. *)
Definition spread (v : JsValue) : gmap string JsValue :=
  match v with
  | JsObject o => o
  | _ => ∅
  end.

(** Property access [v.k] on a value that may not be an object. *)
Definition prop (k : string) (v : JsValue) : option JsValue :=
  match v with
  | JsObject o => o !! k
  | _ => None
  end.

(** Property access along a path, [v.k1.k2...]. *)
Fixpoint get_path (ks : list string) (v : JsValue) : option JsValue :=
  match ks with
  | [] => Some v
  | k :: ks' =>
      match prop k v with
      | Some v' => get_path ks' v'
      | None => None
      end
  end.

(** An object literal [{ ...a, k1: v1, k2: v2 }] starts from the properties
    copied from [a] and defines [k1], [k2], ... in source order, each
    replacing an earlier property of the same name. *)
Definition define_props (o : gmap string JsValue)
    (ps : list (string * JsValue)) : gmap string JsValue :=
  fold_left (λ acc kv, <[kv.1 := kv.2]> acc) ps o.

(** ** The process environment *)

(** [process.env.X] has the TypeScript type [string | undefined]. *)

(** [a || d] on [string | undefined] with a string default: the empty string
    and [undefined] are the falsy values. *)
Definition js_or (a : option string) (d : string) : string :=
  match a with
  | Some s => if String.eqb s "" then d else s
  | None => d
  end.

(** Interpolation [${a}] in a template literal applies ToString, which maps
    [undefined] to the nine letters of its name. *)
Definition interpolate (a : option string) : string :=
  match a with
  | Some s => s
  | None => "undefined"
  end.

(** [dotenv.config({ path })]: the parsed key/value pairs of the file are
    written to [process.env], keeping every variable that is already set.  An
    unreadable file leaves the environment as it is. *)
Definition dotenv_config (parsed : option (gmap string string))
    (env : gmap string string) : gmap string string :=
  match parsed with
  | Some kv => env ∪ kv
  | None => env
  end.

(** The values the module derives from the environment, under the names the
    specification gives them. *)
Module Effective.
Record Config := {
  baseUrl : string;
  bearerToken : option string;
  storageStatePath : string
}.
End Effective.

(** ** How the test runner reads the configuration *)

(** The runner is not part of the repository.  What is modelled here is the
    documented treatment of options by [@playwright/test]: the options of a
    project are the top-level [use] overlaid by the project's own [use], and
    when a browser is launched the [headless] option takes priority over
    [launchOptions.headless]. *)
Module Runner.

Definition is_undefined (v : JsValue) : bool :=
  match v with
  | JsUndefined => true
  | _ => false
  end.

(** [mergeObjects(a, b)]: a copy of [a] in which every property of [b]
    that is not [undefined] is set. *)
Definition mergeObjects (a b : gmap string JsValue) : gmap string JsValue :=
  filter (λ kv, is_undefined kv.2 = false) b ∪ a.

(** The [use] options of project [p] under configuration [cfg], without
    overrides from the command line. *)
Definition project_use (cfg p : JsValue) : gmap string JsValue :=
  mergeObjects (spread (default JsUndefined (prop "use" cfg)))
               (spread (default JsUndefined (prop "use" p))).

(** [launchOptions.headless ?? true], the value of the [headless] option
    when the configuration does not give one. *)
Definition default_headless (u : gmap string JsValue) : JsValue :=
  match u !! "launchOptions" with
  | Some lo =>
      match prop "headless" lo with
      | Some JsUndefined | Some JsNull | None => JsBool true
      | Some v => v
      end
  | None => JsBool true
  end.

(** The [headless] flag the browser is launched with: the [headless]
    option when it is defined, else the one of [launchOptions]. *)
Definition launch_headless (u : gmap string JsValue) : JsValue :=
  match u !! "headless" with
  | Some v => if is_undefined v then default_headless u else v
  | None => default_headless u
  end.

(** The projects that must have run before [p]. *)
Definition dependencies (p : JsValue) : list JsValue :=
  match prop "dependencies" p with
  | Some (JsArray ds) => ds
  | _ => []
  end.

End Runner.

(** Reading a named property of a literal: the insertions are unfolded
    and the last one under that name is found. *)
Ltac read_props :=
  unfold define_props; cbn [fold_left fst snd];
  repeat first
    [ rewrite lookup_insert_eq
    | rewrite lookup_insert_ne by done
    | rewrite lookup_empty ].

Ltac read_path :=
  repeat (cbn [get_path prop]; read_props).

(** ** The process that evaluates the module *)

(** What the module and [dotenv] see of the process: the environment,
    [process.env], and the working directory, [process.cwd()], against
    which the relative path [.env] is resolved. *)
Record Process := {
  proc_env : gmap string string;
  proc_cwd : string
}.

(** ** A sample installation *)

(** Concrete imports and environments on which the configuration is run in
    the examples.  The default objects are chosen to collide with the
    properties that the configuration writes itself. *)
Module Sample.

Definition AnacondaConfigDefaults : JsValue :=
  JsObject (define_props ∅
    [("testDir", JsString "./e2e");
     ("projects", JsArray []);
     ("webServer", JsObject (define_props ∅
        [("timeout", JsNumber 1000);
         ("reuseExistingServer", JsBool false)]))]).

Definition AnacondaProjectDefaults : JsValue :=
  JsObject (define_props ∅
    [("headless", JsBool false);
     ("actionTimeout", JsNumber 30000);
     ("extraHTTPHeaders", JsObject ∅)]).

Definition devices (name : string) : JsValue :=
  if String.eqb name "Desktop Chrome" then
    JsObject (define_props ∅
      [("viewport", JsObject (define_props ∅
          [("width", JsNumber 1280); ("height", JsNumber 720)]));
       ("deviceScaleFactor", JsNumber 1);
       ("isMobile", JsBool false);
       ("hasTouch", JsBool false);
       ("defaultBrowserType", JsString "chromium")])
  else JsUndefined.

Definition path_join (a b : string) : string := a ++ "/" ++ b.

Definition os_homedir (env : gmap string string) : string :=
  default "/root" (env !! "HOME").

Definition dirname : string := "/work/anaconda-cli-testing".

(** An environment with neither [URL] nor [BEARER_TOKEN]. *)
Definition bare_env : gmap string string :=
  {[ "HOME" := "/home/qa" ]}.

(** An environment that points the tests at another site. *)
Definition staging_env : gmap string string :=
  <["URL" := "https://example.test"]> bare_env.

(** A [.env] file that provides a token and an empty [URL]. *)
Definition dotenv_file : option (gmap string string) :=
  Some (<["BEARER_TOKEN" := "s3cr3t"]> {[ "URL" := "" ]}).

(** A [.env] file that points the tests at a staging site. *)
Definition staging_file : option (gmap string string) :=
  Some (<["BEARER_TOKEN" := "s3cr3t"]>
          {[ "URL" := "https://staging.example.test" ]}).

(** An environment in which [URL] is set, to the empty string. *)
Definition blank_url_env : gmap string string :=
  <["URL" := ""]> bare_env.

(** An environment that carries a token and an unrelated variable. *)
Definition token_env : gmap string string :=
  <["BEARER_TOKEN" := "abc"]> (<["CI" := "1"]> bare_env).

(** The file system of the sample: the only [.env] file lies in the
    directory of the module. *)
Definition read_dotenv (dir : string) : option (gmap string string) :=
  if String.eqb dir dirname then dotenv_file else None.

(** The runner started in the directory of the module. *)
Definition at_home : Process :=
  {| proc_env := staging_env; proc_cwd := dirname |}.

(** The runner started in another directory, the configuration being
    named by its path. *)
Definition elsewhere : Process :=
  {| proc_env := bare_env; proc_cwd := "/home/qa/runs" |}.

End Sample.

(** ** The configuration module *)

Section PlaywrightConfig.

Set Default Proof Using "Type".

(** What the module imports: the two default objects of
    [@anaconda/playwright-utils], the device presets of
    [@playwright/test], [path.join], [os.homedir] (which consults the
    environment) and the directory of the module. *)
Variable AnacondaConfigDefaults : JsValue.
Variable AnacondaProjectDefaults : JsValue.
Variable devices : string → JsValue.
Variable path_join : string → string → string.
Variable os_homedir : gmap string string → string.
Variable __dirname : string.

(** The parsed contents of the [.env] file, if it can be read. *)
Variable dotenv_file : option (gmap string string).

(** Lines 15 to 19: the constants computed from the environment. *)
Definition BASE_URL (env : gmap string string) : string :=
  js_or (env !! "URL") "https://www.saucedemo.com".

Definition STORAGE_STATE_PATH : string :=
  path_join __dirname "playwright/.auth".

Definition bearerToken (env : gmap string string) : option string :=
  env !! "BEARER_TOKEN".

(** Lines 31 to 44: the options shared by all projects. *)
Definition use (env : gmap string string) : JsValue :=
  JsObject (define_props (spread AnacondaProjectDefaults)
    [("trace", JsString "retain-on-failure");
     ("screenshot", JsString "only-on-failure");
     ("headless", JsBool true);
     ("baseURL", JsString (BASE_URL env));
     ("extraHTTPHeaders", JsObject (define_props ∅
        [("Authorization",
          JsString ("Bearer " ++ interpolate (bearerToken env)))]))]).

(** Lines 50 to 114: the four entries of [projects], each called here by
    its [name].  The entries that the source keeps in comments, and the
    commented-out [dependencies] and [storageState] lines, are not part of
    the objects. *)
Definition setup : JsValue :=
  JsObject (define_props ∅
    [("name", JsString "setup");
     ("testMatch", JsString "**/login-storage-setup.ts");
     ("use", JsObject (define_props (spread (devices "Desktop Chrome"))
        [("viewport", JsObject (define_props ∅
            [("width", JsNumber 1600); ("height", JsNumber 1000)]));
         ("launchOptions", JsObject (define_props ∅
            [("args", JsArray [JsString "--disable-web-security"]);
             ("slowMo", JsNumber 0)]))]))]).

Definition chromium : JsValue :=
  JsObject (define_props ∅
    [("name", JsString "chromium");
     ("use", JsObject (define_props ∅
        [("viewport", JsNull);
         ("launchOptions", JsObject (define_props ∅
            [("args", JsArray [JsString "--disable-web-security";
                               JsString "--start-maximized"]);
             ("slowMo", JsNumber 0);
             ("headless", JsBool false)]))]))]).

Definition chromiumheadless : JsValue :=
  JsObject (define_props ∅
    [("name", JsString "chromiumheadless");
     ("use", JsObject (define_props (spread (devices "Desktop Chrome"))
        [("viewport", JsObject (define_props ∅
            [("width", JsNumber 1600); ("height", JsNumber 1000)]));
         ("launchOptions", JsObject (define_props ∅
            [("args", JsArray [JsString "--disable-web-security"]);
             ("slowMo", JsNumber 0);
             ("headless", JsBool true)]))]))]).

Definition chromiumProd : JsValue :=
  JsObject (define_props ∅
    [("name", JsString "chromiumProd");
     ("use", JsObject (define_props (spread (devices "Desktop Chrome"))
        [("viewport", JsObject (define_props ∅
            [("width", JsNumber 1600); ("height", JsNumber 1000)]));
         ("launchOptions", JsObject (define_props ∅
            [("args", JsArray [JsString "--disable-web-security"]);
             ("slowMo", JsNumber 0);
             ("headless", JsBool true)]))]))]).

Definition projects : list JsValue :=
  [setup; chromium; chromiumheadless; chromiumProd].

(** Lines 166 to 175: how the runner starts the local server. *)
Definition webServer (env : gmap string string) : JsValue :=
  JsObject (define_props ∅
    [("cwd", JsString (os_homedir env ++ "/repos/ui"));
     ("command", JsString "npm start ui-server");
     ("url", JsString (BASE_URL env));
     ("ignoreHTTPSErrors", JsBool true);
     ("timeout", JsNumber (2 * 60 * 1000));
     ("reuseExistingServer", JsBool true);
     ("stdout", JsString "pipe");
     ("stderr", JsString "pipe")]).

(** [defineConfig] returns the single configuration it is given. *)
Definition defineConfig (c : JsValue) : JsValue := c.

(** The default export, for the environment the module reads. *)
Definition config (env : gmap string string) : JsValue :=
  defineConfig (JsObject (define_props (spread AnacondaConfigDefaults)
    [("testDir", JsString "./tests");
     ("use", use env);
     ("projects", JsArray projects);
     ("webServer", webServer env)])).

Definition resolve (env : gmap string string) : Effective.Config :=
  {| Effective.baseUrl := BASE_URL env;
     Effective.bearerToken := bearerToken env;
     Effective.storageStatePath := STORAGE_STATE_PATH |}.

(** Evaluating the module in a process: [dotenv.config] first updates
    [process.env] from the parsed [.env] file, then the constants and the
    default export are computed from the updated environment, which stays
    behind in the process. *)

Definition load (env0 : gmap string string)
    : gmap string string * (Effective.Config * JsValue) :=
  let env := dotenv_config dotenv_file env0 in
  (env, (resolve env, config env)).

(** The parsed contents of the [.env] file of a directory, if there is one
    that can be read. *)
Variable read_dotenv : string → option (gmap string string).

(** The same evaluation with the [.env] file found as the process finds it:
    the path [.env] of line 10 is relative, so the file is the one of the
    working directory, while [STORAGE_STATE_PATH] of line 16 starts from
    [__dirname], the directory of the module. *)
Definition evaluate (p : Process)
    : gmap string string * (Effective.Config * JsValue) :=
  let env := dotenv_config (read_dotenv (proc_cwd p)) (proc_env p) in
  (env, (resolve env, config env)).

(** The [headless] flag with which the runner launches the browser of
    project [p]. *)
Definition effective_headless (env : gmap string string) (p : JsValue)
    : JsValue :=
  Runner.launch_headless (Runner.project_use (config env) p).

(** A project carries the shared launch flag when its
    [use.launchOptions.args] is an array that contains it. *)
Definition has_web_security_flag (p : JsValue) : Prop :=
  ∃ args, get_path ["use"; "launchOptions"; "args"] p = Some (JsArray args)
          ∧ JsString "--disable-web-security" ∈ args.

(** *** Reading literals *)

Lemma lookup_spread v k : spread v !! k = prop k v.
Proof. destruct v; cbn [spread prop]; by rewrite ?lookup_empty. Qed.

Lemma define_props_app o ps1 ps2 :
  define_props o (ps1 ++ ps2) = define_props (define_props o ps1) ps2.
Proof. unfold define_props. apply fold_left_app. Qed.

Lemma lookup_define_props_cons o k v ps j :
  define_props o ((k, v) :: ps) !! j = define_props (<[k := v]> o) ps !! j.
Proof. done. Qed.

(** A property that the literal does not write keeps the value of the
    spread object. *)
Lemma lookup_define_props_other o ps j :
  j ∉ ps.*1 → define_props o ps !! j = o !! j.
Proof.
  revert o. induction ps as [|[k v] ps IH]; intros o Hj; [done|].
  rewrite lookup_define_props_cons. cbn in Hj.
  apply not_elem_of_cons in Hj as [Hne Hj].
  rewrite IH; [|done]. by rewrite lookup_insert_ne.
Qed.

(** A property written once by the literal has the written value, whatever
    the spread object holds under that name. *)
Lemma lookup_define_props_written o ps1 k v ps2 :
  k ∉ ps2.*1 → define_props o (ps1 ++ (k, v) :: ps2) !! k = Some v.
Proof.
  intros Hk. rewrite define_props_app, lookup_define_props_cons.
  rewrite lookup_define_props_other; [|done]. apply lookup_insert_eq.
Qed.

Lemma config_use env : prop "use" (config env) = Some (use env).
Proof. unfold config, defineConfig. cbn [prop]. by read_props. Qed.

Lemma config_projects env :
  prop "projects" (config env) = Some (JsArray projects).
Proof. unfold config, defineConfig. cbn [prop]. by read_props. Qed.

Lemma config_webServer env :
  prop "webServer" (config env) = Some (webServer env).
Proof. unfold config, defineConfig. cbn [prop]. by read_props. Qed.

Lemma use_headless env : prop "headless" (use env) = Some (JsBool true).
Proof. unfold use. cbn [prop]. by read_props. Qed.

Lemma use_baseURL env :
  prop "baseURL" (use env) = Some (JsString (BASE_URL env)).
Proof. unfold use. cbn [prop]. by read_props. Qed.

Lemma use_authorization env :
  get_path ["extraHTTPHeaders"; "Authorization"] (use env)
  = Some (JsString ("Bearer " ++ interpolate (env !! "BEARER_TOKEN"))).
Proof. unfold use, bearerToken. by read_path. Qed.

(** *** The environment resolver *)

Lemma js_or_falsy a d : a = None ∨ a = Some "" → js_or a d = d.
Proof. by intros [-> | ->]. Qed.

Lemma js_or_truthy s d : s ≠ "" → js_or (Some s) d = s.
Proof.
  intros Hs. unfold js_or. destruct (String.eqb_spec s ""); congruence.
Qed.

Lemma dotenv_config_keeps env k v :
  env !! k = Some v → dotenv_config dotenv_file env !! k = Some v.
Proof.
  intros Hk. unfold dotenv_config. destruct dotenv_file as [kv|]; [|done].
  by apply lookup_union_Some_l.
Qed.

Lemma dotenv_config_fills env kv k :
  dotenv_file = Some kv → env !! k = None →
  dotenv_config dotenv_file env !! k = kv !! k.
Proof.
  intros -> Hk. unfold dotenv_config. by rewrite lookup_union_r.
Qed.

(** A second [dotenv.config] finds every variable of the file already set
    and changes nothing. *)
Lemma dotenv_config_idemp env :
  dotenv_config dotenv_file (dotenv_config dotenv_file env)
  = dotenv_config dotenv_file env.
Proof.
  unfold dotenv_config. destruct dotenv_file as [kv|]; [|done].
  apply map_eq. intros k. rewrite !lookup_union.
  destruct (env !! k), (kv !! k); done.
Qed.

(** C4: when [URL] is unset or bound to the empty string, the resolved
    [baseUrl] is the literal default [https://www.saucedemo.com]. *)
Theorem baseUrl_default env :
  env !! "URL" = None ∨ env !! "URL" = Some "" →
  Effective.baseUrl (resolve env) = "https://www.saucedemo.com".
Proof. intros HURL. cbn. unfold BASE_URL. by apply js_or_falsy. Qed.

(** C5: when [URL] is bound to [https://example.test], the resolved
    [baseUrl] is exactly that string, character for character. *)
Theorem baseUrl_override env :
  env !! "URL" = Some "https://example.test" →
  Effective.baseUrl (resolve env) = "https://example.test".
Proof. intros HURL. cbn. unfold BASE_URL. rewrite HURL. by apply js_or_truthy. Qed.

(** C1, as the module behaves: when [BEARER_TOKEN] is unset the
    Authorization header is [Bearer undefined], the interpolation of the
    undefined token; and in every environment the header is present and is
    [Bearer ] followed by the interpolated token. *)
Theorem authorization_unset env :
  env !! "BEARER_TOKEN" = None →
  get_path ["use"; "extraHTTPHeaders"; "Authorization"] (config env)
  = Some (JsString "Bearer undefined")
  ∧ ∀ env',
      get_path ["use"; "extraHTTPHeaders"; "Authorization"] (config env')
      = Some (JsString ("Bearer " ++ interpolate (env' !! "BEARER_TOKEN"))).
Proof.
  intros Htok.
  assert (Hall : ∀ env',
    get_path ["use"; "extraHTTPHeaders"; "Authorization"] (config env')
    = Some (JsString ("Bearer " ++ interpolate (env' !! "BEARER_TOKEN")))).
  { intros env'. cbn [get_path]. rewrite config_use.
    apply use_authorization. }
  split; [|done]. by rewrite Hall, Htok.
Qed.

(** C7: evaluating the module a second time in the same process, with the
    same [.env] file, resolves the same values, field for field. *)
Theorem resolve_idempotent env0 :
  let first := load env0 in
  let second := load first.1 in
  second = first
  ∧ Effective.baseUrl second.2.1 = Effective.baseUrl first.2.1
  ∧ Effective.bearerToken second.2.1 = Effective.bearerToken first.2.1
  ∧ Effective.storageStatePath second.2.1
    = Effective.storageStatePath first.2.1.
Proof.
  cbn zeta. unfold load. cbn [fst snd].
  rewrite dotenv_config_idemp. done.
Qed.

(** C9, as the module behaves: the storage-state path is the same for any
    two processes, whatever their environments, working directories and
    [.env] files, namely the directory of the module, [__dirname], joined
    with [playwright/.auth]. *)
Theorem storageStatePath_module_directory p1 p2 :
  Effective.storageStatePath (evaluate p1).2.1
  = Effective.storageStatePath (evaluate p2).2.1
  ∧ Effective.storageStatePath (evaluate p1).2.1
    = path_join __dirname "playwright/.auth".
Proof.
  unfold evaluate. cbn [fst snd]. unfold resolve.
  cbn [Effective.storageStatePath]. split; reflexivity.
Qed.

(** *** The project matrix *)

Lemma setup_args :
  get_path ["use"; "launchOptions"; "args"] setup
  = Some (JsArray [JsString "--disable-web-security"]).
Proof. unfold setup. by read_path. Qed.

Lemma chromium_args :
  get_path ["use"; "launchOptions"; "args"] chromium
  = Some (JsArray [JsString "--disable-web-security";
                   JsString "--start-maximized"]).
Proof. unfold chromium. by read_path. Qed.

Lemma chromiumheadless_args :
  get_path ["use"; "launchOptions"; "args"] chromiumheadless
  = Some (JsArray [JsString "--disable-web-security"]).
Proof. unfold chromiumheadless. by read_path. Qed.

Lemma chromiumProd_args :
  get_path ["use"; "launchOptions"; "args"] chromiumProd
  = Some (JsArray [JsString "--disable-web-security"]).
Proof. unfold chromiumProd. by read_path. Qed.

Lemma project_names :
  prop "name" <$> projects
  = [Some (JsString "setup"); Some (JsString "chromium");
     Some (JsString "chromiumheadless"); Some (JsString "chromiumProd")].
Proof.
  unfold projects, setup, chromium, chromiumheadless, chromiumProd.
  cbn [fmap list_fmap prop]. by read_props.
Qed.

(** C2: in every environment the configuration lists exactly four
    projects, named [setup], [chromium], [chromiumheadless] and
    [chromiumProd] in that order, no name twice, and each with
    [--disable-web-security] among its launch arguments. *)
Theorem projects_matrix env :
  ∃ ps, prop "projects" (config env) = Some (JsArray ps)
    ∧ length ps = 4
    ∧ prop "name" <$> ps
      = [Some (JsString "setup"); Some (JsString "chromium");
         Some (JsString "chromiumheadless"); Some (JsString "chromiumProd")]
    ∧ NoDup (prop "name" <$> ps)
    ∧ Forall has_web_security_flag ps.
Proof.
  exists projects. split; [apply config_projects|].
  split; [done|]. split; [apply project_names|].
  split.
  - rewrite project_names.
    repeat (apply NoDup_cons; split;
      [rewrite ?elem_of_cons, elem_of_nil; intros Hin;
       decompose [or] Hin; congruence|]).
    apply NoDup_nil_2.
  - unfold projects. repeat apply Forall_cons_2; [..|apply Forall_nil_2].
    + eexists. split; [apply setup_args|constructor].
    + eexists. split; [apply chromium_args|constructor].
    + eexists. split; [apply chromiumheadless_args|constructor].
    + eexists. split; [apply chromiumProd_args|constructor].
Qed.

(** C8: [chromiumProd] differs from [chromiumheadless] in its name only:
    the two [use] objects are equal, hence the same device preset, the
    same 1600 by 1000 viewport, the same launch arguments, [slowMo] and
    [headless]. *)
Theorem chromiumProd_like_chromiumheadless :
  delete "name" (spread chromiumProd)
  = delete "name" (spread chromiumheadless)
  ∧ prop "name" chromiumProd ≠ prop "name" chromiumheadless
  ∧ prop "use" chromiumProd = prop "use" chromiumheadless
  ∧ (∀ env, effective_headless env chromiumProd
            = effective_headless env chromiumheadless)
  ∧ Forall (λ p,
      (∀ k, k ≠ "viewport" → k ≠ "launchOptions" →
         get_path ["use"; k] p = prop k (devices "Desktop Chrome"))
      ∧ get_path ["use"; "viewport"; "width"] p = Some (JsNumber 1600)
      ∧ get_path ["use"; "viewport"; "height"] p = Some (JsNumber 1000)
      ∧ get_path ["use"; "launchOptions"; "args"] p
        = Some (JsArray [JsString "--disable-web-security"])
      ∧ get_path ["use"; "launchOptions"; "slowMo"] p = Some (JsNumber 0)
      ∧ get_path ["use"; "launchOptions"; "headless"] p
        = Some (JsBool true))
      [chromiumProd; chromiumheadless].
Proof.
  assert (Huse : prop "use" chromiumProd = prop "use" chromiumheadless).
  { unfold chromiumProd, chromiumheadless. cbn [prop]. by read_props. }
  split; [|split; [|split; [done|split]]].
  - unfold chromiumProd, chromiumheadless, spread, define_props.
    cbn [fold_left fst snd].
    apply map_eq. intros k. rewrite !lookup_delete.
    case_decide; [done|]. rewrite !lookup_insert.
    repeat case_decide; congruence.
  - unfold chromiumProd, chromiumheadless. cbn [prop]. read_props.
    congruence.
  - intros env. unfold effective_headless, Runner.project_use.
    by rewrite Huse.
  - repeat apply Forall_cons_2; [..|apply Forall_nil_2].
    + unfold chromiumProd. split; [|by repeat split; read_path].
      intros k Hv Hl. read_path. rewrite lookup_spread.
      by destruct (prop k _).
    + unfold chromiumheadless. split; [|by repeat split; read_path].
      intros k Hv Hl. read_path. rewrite lookup_spread.
      by destruct (prop k _).
Qed.

(** C10: no project of the configuration has a [dependencies] property,
    so the runner has no project to run before any of the four. *)
Theorem projects_independent env :
  ∃ ps, prop "projects" (config env) = Some (JsArray ps)
    ∧ length ps = 4
    ∧ Forall (λ p, prop "dependencies" p = None
                   ∧ Runner.dependencies p = []) ps.
Proof.
  exists projects. split; [apply config_projects|]. split; [done|].
  assert (Hdeps : ∀ p, prop "dependencies" p = None →
            prop "dependencies" p = None ∧ Runner.dependencies p = []).
  { intros p Hp. split; [done|]. unfold Runner.dependencies. by rewrite Hp. }
  unfold projects. repeat apply Forall_cons_2; [..|apply Forall_nil_2];
    apply Hdeps.
  - unfold setup. cbn [prop]. by read_props.
  - unfold chromium. cbn [prop]. by read_props.
  - unfold chromiumheadless. cbn [prop]. by read_props.
  - unfold chromiumProd. cbn [prop]. by read_props.
Qed.

(** *** The server bootstrap *)

(** C6: in every environment the web server's start-up timeout is 120000
    milliseconds and an existing server is reused. *)
Theorem webServer_timeout_reuse env :
  get_path ["webServer"; "timeout"] (config env) = Some (JsNumber 120000)
  ∧ get_path ["webServer"; "reuseExistingServer"] (config env)
    = Some (JsBool true).
Proof.
  cbn [get_path]. rewrite config_webServer. unfold webServer.
  split; by read_path.
Qed.

(** *** Headless and headed projects *)

Lemma mergeObjects_keeps a b k :
  b !! k = None → Runner.mergeObjects a b !! k = a !! k.
Proof.
  intros Hk. unfold Runner.mergeObjects. apply lookup_union_r.
  apply map_lookup_filter_None. left. done.
Qed.

(** A project whose own [use] has no [headless] property is launched with
    the top-level [headless], which is [true]; what its [launchOptions]
    say about [headless] is not consulted. *)
Lemma effective_headless_inherited env p :
  get_path ["use"; "headless"] p = None →
  Runner.project_use (config env) p !! "headless" = Some (JsBool true)
  ∧ effective_headless env p = JsBool true.
Proof.
  intros Hp.
  assert (Hm : Runner.project_use (config env) p !! "headless"
               = Some (JsBool true)).
  { unfold Runner.project_use. rewrite mergeObjects_keeps.
    - rewrite config_use. cbn [default from_option id].
      rewrite lookup_spread.
      apply use_headless.
    - rewrite lookup_spread. cbn [get_path] in Hp.
      destruct (prop "use" p) as [u|]; [|done].
      cbn [default from_option id]. by destruct (prop "headless" u). }
  split; [done|]. unfold effective_headless, Runner.launch_headless.
  by rewrite Hm.
Qed.

(** What the four projects write under [launchOptions.headless]. *)
Lemma declared_launch_headless :
  get_path ["use"; "launchOptions"; "headless"] setup = None
  ∧ get_path ["use"; "launchOptions"; "headless"] chromium
    = Some (JsBool false)
  ∧ get_path ["use"; "launchOptions"; "headless"] chromiumheadless
    = Some (JsBool true)
  ∧ get_path ["use"; "launchOptions"; "headless"] chromiumProd
    = Some (JsBool true).
Proof.
  unfold setup, chromium, chromiumheadless, chromiumProd.
  repeat split; by read_path.
Qed.

(** C3, at the [chromium] project: the project writes [headless: false]
    under [launchOptions] only, its [use] has no [headless] of its own, so
    the merged options keep the top-level [headless: true] and the browser
    is launched headless. *)
Theorem chromium_effective_headless env :
  get_path ["use"; "launchOptions"; "headless"] chromium
  = Some (JsBool false)
  ∧ get_path ["use"; "headless"] chromium = None
  ∧ Runner.project_use (config env) chromium !! "headless"
    = Some (JsBool true)
  ∧ effective_headless env chromium = JsBool true.
Proof.
  assert (Hown : get_path ["use"; "headless"] chromium = None).
  { unfold chromium. by read_path. }
  split; [apply declared_launch_headless|]. split; [done|].
  by apply effective_headless_inherited.
Qed.

(** ** Further properties of the module *)

(** *** What [dotenv.config] does to the environment *)

Lemma dotenv_config_lookup env k :
  dotenv_config dotenv_file env !! k
  = match env !! k with
    | Some v => Some v
    | None => dotenv_file ≫= (λ kv, kv !! k)
    end.
Proof.
  unfold dotenv_config. destruct dotenv_file as [kv|]; cbn.
  - rewrite lookup_union. by destruct (env !! k), (kv !! k).
  - by destruct (env !! k).
Qed.

Lemma config_baseURL env :
  get_path ["use"; "baseURL"] (config env) = Some (JsString (BASE_URL env)).
Proof. cbn [get_path]. rewrite config_use, use_baseURL. done. Qed.

Lemma config_authorization env :
  get_path ["use"; "extraHTTPHeaders"; "Authorization"] (config env)
  = Some (JsString ("Bearer " ++ interpolate (env !! "BEARER_TOKEN"))).
Proof. cbn [get_path]. rewrite config_use. apply use_authorization. Qed.

(** *** The base URL *)

(** X1: the base URL is never the empty string: it is the value of [URL]
    whenever that is set and not empty, and the default otherwise. *)
Theorem BASE_URL_nonempty env :
  BASE_URL env ≠ ""
  ∧ (∀ u, env !! "URL" = Some u → u ≠ "" → BASE_URL env = u)
  ∧ (env !! "URL" = None ∨ env !! "URL" = Some "" →
     BASE_URL env = "https://www.saucedemo.com").
Proof.
  split; [|split].
  - unfold BASE_URL, js_or. destruct (env !! "URL") as [u|]; [|done].
    by destruct (String.eqb_spec u "").
  - intros u HURL Hu. unfold BASE_URL. rewrite HURL. by apply js_or_truthy.
  - intros HURL. unfold BASE_URL. by apply js_or_falsy.
Qed.

(** X2: the [baseURL] of the shared options and the readiness [url] of the
    web server are both the resolved base URL, whatever the imported
    defaults contain. *)
Theorem baseURL_agrees env :
  get_path ["use"; "baseURL"] (config env)
  = Some (JsString (Effective.baseUrl (resolve env)))
  ∧ get_path ["webServer"; "url"] (config env)
    = Some (JsString (Effective.baseUrl (resolve env))).
Proof.
  split; [apply config_baseURL|].
  cbn [get_path]. rewrite config_webServer. unfold webServer.
  by read_path.
Qed.

(** X3: a non-empty [URL] of the process environment is the base URL of
    the loaded module, whatever the [.env] file says. *)
Theorem process_URL_wins env0 u :
  u ≠ "" → env0 !! "URL" = Some u →
  Effective.baseUrl (load env0).2.1 = u
  ∧ get_path ["use"; "baseURL"] (load env0).2.2 = Some (JsString u).
Proof.
  intros Hu HURL. unfold load. cbn [fst snd].
  assert (HB : BASE_URL (dotenv_config dotenv_file env0) = u).
  { unfold BASE_URL. rewrite dotenv_config_lookup, HURL.
    by apply js_or_truthy. }
  split; [exact HB|]. by rewrite config_baseURL, HB.
Qed.

(** X4: when the process environment has no [URL], a non-empty [URL] of
    the [.env] file is the base URL of the loaded module. *)
Theorem dotenv_URL_fills env0 kv u :
  dotenv_file = Some kv → env0 !! "URL" = None →
  kv !! "URL" = Some u → u ≠ "" →
  Effective.baseUrl (load env0).2.1 = u
  ∧ get_path ["use"; "baseURL"] (load env0).2.2 = Some (JsString u).
Proof.
  intros Hfile HURL Hkv Hu. unfold load. cbn [fst snd].
  assert (HB : BASE_URL (dotenv_config dotenv_file env0) = u).
  { unfold BASE_URL. rewrite dotenv_config_lookup, HURL, Hfile. cbn.
    rewrite Hkv. by apply js_or_truthy. }
  split; [exact HB|]. by rewrite config_baseURL, HB.
Qed.

(** X5: a [URL] that the process environment sets to the empty string
    hides the [URL] of the [.env] file: the loaded module falls back to the
    default. *)
Theorem empty_process_URL_hides_file env0 :
  env0 !! "URL" = Some "" →
  Effective.baseUrl (load env0).2.1 = "https://www.saucedemo.com".
Proof.
  intros HURL. unfold load. cbn [fst snd resolve Effective.baseUrl].
  unfold BASE_URL. by rewrite dotenv_config_lookup, HURL.
Qed.

(** *** The bearer token *)

(** X6: the loaded module takes the token from the process environment
    and, when the process has none, from the [.env] file; the header is
    [Bearer ] followed by exactly that token. *)
Theorem token_after_load env0 t :
  env0 !! "BEARER_TOKEN" = Some t
  ∨ (env0 !! "BEARER_TOKEN" = None
     ∧ ∃ kv, dotenv_file = Some kv ∧ kv !! "BEARER_TOKEN" = Some t) →
  Effective.bearerToken (load env0).2.1 = Some t
  ∧ get_path ["use"; "extraHTTPHeaders"; "Authorization"] (load env0).2.2
    = Some (JsString ("Bearer " ++ t)).
Proof.
  intros Htok. unfold load. cbn [fst snd].
  assert (HT : dotenv_config dotenv_file env0 !! "BEARER_TOKEN" = Some t).
  { rewrite dotenv_config_lookup.
    destruct Htok as [-> | [-> (kv & -> & Hkv)]]; [done|]. by cbn. }
  split; [exact HT|]. by rewrite config_authorization, HT.
Qed.

(** X16: two environments give the same Authorization header exactly when
    their tokens interpolate to the same text; in particular two tokens
    that are set give the same header only when they are equal. *)
Theorem authorization_separates env1 env2 :
  (get_path ["use"; "extraHTTPHeaders"; "Authorization"] (config env1)
   = get_path ["use"; "extraHTTPHeaders"; "Authorization"] (config env2)
   ↔ interpolate (env1 !! "BEARER_TOKEN")
     = interpolate (env2 !! "BEARER_TOKEN"))
  ∧ ∀ t1 t2,
      env1 !! "BEARER_TOKEN" = Some t1 → env2 !! "BEARER_TOKEN" = Some t2 →
      get_path ["use"; "extraHTTPHeaders"; "Authorization"] (config env1)
      = get_path ["use"; "extraHTTPHeaders"; "Authorization"] (config env2) →
      t1 = t2.
Proof.
  assert (Hiff :
    get_path ["use"; "extraHTTPHeaders"; "Authorization"] (config env1)
    = get_path ["use"; "extraHTTPHeaders"; "Authorization"] (config env2)
    ↔ interpolate (env1 !! "BEARER_TOKEN")
      = interpolate (env2 !! "BEARER_TOKEN")).
  { rewrite !config_authorization. split.
    - intros Heq. injection Heq as Heq. exact Heq.
    - by intros ->. }
  split; [exact Hiff|].
  intros t1 t2 H1 H2 Heq. apply Hiff in Heq. by rewrite H1, H2 in Heq.
Qed.

(** *** Defaults and the properties the module writes *)

(** X7: the four properties that the module writes after the spread of
    [AnacondaConfigDefaults] are its own whatever the defaults hold, and
    every other property of the configuration is the one of the defaults. *)
Theorem config_own_properties env :
  prop "testDir" (config env) = Some (JsString "./tests")
  ∧ prop "use" (config env) = Some (use env)
  ∧ prop "projects" (config env) = Some (JsArray projects)
  ∧ prop "webServer" (config env) = Some (webServer env)
  ∧ ∀ k, k ∉ ["testDir"; "use"; "projects"; "webServer"] →
      prop k (config env) = prop k AnacondaConfigDefaults.
Proof.
  split; [|split; [|split; [|split]]].
  - unfold config, defineConfig. cbn [prop]. by read_props.
  - apply config_use.
  - apply config_projects.
  - apply config_webServer.
  - intros k Hk. unfold config, defineConfig. cbn [prop].
    rewrite lookup_define_props_other by exact Hk. apply lookup_spread.
Qed.

(** X8: in the shared options the trace and screenshot policies are those
    of the module, every property other than the five it writes is the one
    of [AnacondaProjectDefaults], and the headers of the defaults are
    replaced, not merged: [Authorization] is the only header. *)
Theorem use_own_properties env :
  get_path ["use"; "trace"] (config env)
  = Some (JsString "retain-on-failure")
  ∧ get_path ["use"; "screenshot"] (config env)
    = Some (JsString "only-on-failure")
  ∧ (∀ k, k ∉ ["trace"; "screenshot"; "headless"; "baseURL";
               "extraHTTPHeaders"] →
       get_path ["use"; k] (config env) = prop k AnacondaProjectDefaults)
  ∧ ∀ k, k ≠ "Authorization" →
      get_path ["use"; "extraHTTPHeaders"; k] (config env) = None.
Proof.
  split; [|split; [|split]].
  - cbn [get_path]. rewrite config_use. unfold use. by read_path.
  - cbn [get_path]. rewrite config_use. unfold use. by read_path.
  - intros k Hk. cbn [get_path]. rewrite config_use. unfold use.
    cbn [prop]. rewrite lookup_define_props_other by exact Hk.
    rewrite lookup_spread. by destruct (prop k _).
  - intros k Hk. cbn [get_path]. rewrite config_use. unfold use.
    cbn [prop]. unfold define_props at 1. cbn [fold_left fst snd].
    rewrite lookup_insert_eq. cbn [get_path prop].
    unfold define_props. cbn [fold_left fst snd].
    by rewrite lookup_insert_ne, lookup_empty.
Qed.

(** X9: the [setup] project differs from [chromiumheadless] in its name,
    its [testMatch] and the absent [launchOptions.headless] only. *)
Theorem setup_like_chromiumheadless :
  (∀ k, k ∉ ["name"; "testMatch"; "use"] →
     prop k setup = prop k chromiumheadless)
  ∧ (∀ k, k ≠ "launchOptions" →
       get_path ["use"; k] setup = get_path ["use"; k] chromiumheadless)
  ∧ (∀ k, k ≠ "headless" →
       get_path ["use"; "launchOptions"; k] setup
       = get_path ["use"; "launchOptions"; k] chromiumheadless)
  ∧ prop "testMatch" setup = Some (JsString "**/login-storage-setup.ts")
  ∧ prop "testMatch" chromiumheadless = None
  ∧ get_path ["use"; "launchOptions"; "headless"] setup = None.
Proof.
  split; [|split; [|split; [|split; [|split]]]].
  - intros k Hk. unfold setup, chromiumheadless. cbn [prop].
    rewrite !not_elem_of_cons in Hk. destruct Hk as (? & ? & ? & _).
    unfold define_props. cbn [fold_left fst snd].
    by rewrite !lookup_insert_ne, lookup_empty.
  - intros k Hk. unfold setup, chromiumheadless.
    cbn [get_path prop]. read_props. cbn [prop].
    rewrite !(lookup_insert_ne _ "launchOptions") by done. done.
  - intros k Hk. unfold setup, chromiumheadless. read_path. cbn [prop].
    rewrite (lookup_insert_ne _ "headless") by done. done.
  - unfold setup. cbn [prop]. by read_props.
  - unfold chromiumheadless. cbn [prop]. by read_props.
  - unfold setup. by read_path.
Qed.

(** *** The options that reach a project *)

Lemma mergeObjects_overrides a b k v :
  b !! k = Some v → Runner.is_undefined v = false →
  Runner.mergeObjects a b !! k = Some v.
Proof.
  intros Hk Hv. unfold Runner.mergeObjects. apply lookup_union_Some_l.
  by apply map_lookup_filter_Some.
Qed.

(** An option that the project does not set is the top-level one. *)
Lemma project_use_inherits env p k :
  get_path ["use"; k] p = None →
  Runner.project_use (config env) p !! k = prop k (use env).
Proof.
  intros Hp. unfold Runner.project_use. rewrite mergeObjects_keeps.
  - rewrite config_use. cbn [default from_option id]. apply lookup_spread.
  - rewrite lookup_spread. cbn [get_path] in Hp.
    destruct (prop "use" p) as [u|]; [|done].
    cbn [default from_option id]. by destruct (prop k u).
Qed.

(** An option that the project sets is the project's. *)
Lemma project_use_own env p k v :
  get_path ["use"; k] p = Some v → Runner.is_undefined v = false →
  Runner.project_use (config env) p !! k = Some v.
Proof.
  intros Hp Hv. unfold Runner.project_use. apply mergeObjects_overrides; [|done].
  rewrite lookup_spread. cbn [get_path] in Hp.
  destruct (prop "use" p) as [u|]; [|done].
  cbn [default from_option id]. by destruct (prop k u).
Qed.

(** Apart from [viewport] and [launchOptions], a project sets only what
    the device preset sets. *)
Lemma project_sets_preset_only p k :
  p ∈ projects → k ≠ "viewport" → k ≠ "launchOptions" →
  prop k (devices "Desktop Chrome") = None →
  get_path ["use"; k] p = None.
Proof.
  unfold projects. rewrite !elem_of_cons, elem_of_nil.
  intros Hp Hv Hl Hd.
  destruct Hp as [-> | [-> | [-> | [-> | []]]]].
  - unfold setup. read_path. by rewrite lookup_spread, Hd.
  - unfold chromium. by read_path.
  - unfold chromiumheadless. read_path. by rewrite lookup_spread, Hd.
  - unfold chromiumProd. read_path. by rewrite lookup_spread, Hd.
Qed.

(** X12: when the device preset sets no [headless], the runner launches
    every project of the configuration headless. *)
Theorem all_projects_launch_headless env :
  prop "headless" (devices "Desktop Chrome") = None →
  Forall (λ p, effective_headless env p = JsBool true) projects.
Proof.
  intros Hd. apply Forall_forall. intros p Hp.
  apply effective_headless_inherited.
  by apply project_sets_preset_only.
Qed.

(** X14: when the device preset sets neither [baseURL] nor
    [extraHTTPHeaders], every project runs against the resolved base URL
    and sends the Authorization header of the shared options. *)
Theorem projects_inherit_target env :
  prop "baseURL" (devices "Desktop Chrome") = None →
  prop "extraHTTPHeaders" (devices "Desktop Chrome") = None →
  Forall (λ p,
    Runner.project_use (config env) p !! "baseURL"
    = Some (JsString (BASE_URL env))
    ∧ Runner.project_use (config env) p !! "extraHTTPHeaders"
        ≫= prop "Authorization"
      = Some (JsString ("Bearer " ++ interpolate (env !! "BEARER_TOKEN"))))
    projects.
Proof.
  intros Hb Hh. apply Forall_forall. intros p Hp. split.
  - rewrite project_use_inherits by (by apply project_sets_preset_only).
    apply use_baseURL.
  - rewrite project_use_inherits by (by apply project_sets_preset_only).
    pose proof (use_authorization env) as Ha. cbn [get_path] in Ha.
    destruct (prop "extraHTTPHeaders" (use env)) as [h|]; [|done].
    cbn. by destruct (prop "Authorization" h).
Qed.

(** X15: the launch options of a project are its own: launch options of
    the imported defaults do not reach any project, not even in part. *)
Theorem projects_own_launchOptions env :
  Forall (λ p,
    ∃ lo, get_path ["use"; "launchOptions"] p = Some lo
      ∧ Runner.project_use (config env) p !! "launchOptions" = Some lo)
    projects.
Proof.
  unfold projects. repeat apply Forall_cons_2; [..|apply Forall_nil_2].
  - eexists. split; [unfold setup; by read_path|].
    apply project_use_own; [unfold setup; by read_path|done].
  - eexists. split; [unfold chromium; by read_path|].
    apply project_use_own; [unfold chromium; by read_path|done].
  - eexists. split; [unfold chromiumheadless; by read_path|].
    apply project_use_own; [unfold chromiumheadless; by read_path|done].
  - eexists. split; [unfold chromiumProd; by read_path|].
    apply project_use_own; [unfold chromiumProd; by read_path|done].
Qed.

(** *** The server descriptor and the viewports *)

(** X17: the web server is started in [repos/ui] under the home directory
    with the fixed command, its output is piped and HTTPS errors are
    ignored; the descriptor has no property besides the eight the module
    writes, so a [webServer] of the imported defaults is dropped whole. *)
Theorem webServer_own env :
  get_path ["webServer"; "cwd"] (config env)
  = Some (JsString (os_homedir env ++ "/repos/ui"))
  ∧ get_path ["webServer"; "command"] (config env)
    = Some (JsString "npm start ui-server")
  ∧ get_path ["webServer"; "ignoreHTTPSErrors"] (config env)
    = Some (JsBool true)
  ∧ get_path ["webServer"; "stdout"] (config env) = Some (JsString "pipe")
  ∧ get_path ["webServer"; "stderr"] (config env) = Some (JsString "pipe")
  ∧ ∀ k, k ∉ ["cwd"; "command"; "url"; "ignoreHTTPSErrors"; "timeout";
              "reuseExistingServer"; "stdout"; "stderr"] →
      get_path ["webServer"; k] (config env) = None.
Proof.
  cbn [get_path]. rewrite config_webServer. unfold webServer.
  repeat split; try by read_path.
  intros k Hk. cbn [prop].
  rewrite lookup_define_props_other by exact Hk. by rewrite lookup_empty.
Qed.

(** X18: whatever viewport the device preset carries, the three projects
    built on it have the fixed viewport of 1600 by 1000, and [chromium]
    has the null viewport. *)
Theorem project_viewports :
  Forall (λ p,
    get_path ["use"; "viewport"; "width"] p = Some (JsNumber 1600)
    ∧ get_path ["use"; "viewport"; "height"] p = Some (JsNumber 1000)
    ∧ ∀ k, k ∉ ["width"; "height"] →
        get_path ["use"; "viewport"; k] p = None)
    [setup; chromiumheadless; chromiumProd]
  ∧ get_path ["use"; "viewport"] chromium = Some JsNull.
Proof.
  assert (Hother : ∀ k, k ∉ ["width"; "height"] →
    (<["height" := JsNumber 1000]> (<["width" := JsNumber 1600]> ∅)
       : gmap string JsValue) !! k = None).
  { intros k Hk.
    change (define_props ∅
              [("width", JsNumber 1600); ("height", JsNumber 1000)] !! k
            = None).
    rewrite lookup_define_props_other by exact Hk. apply lookup_empty. }
  split; [|unfold chromium; by read_path].
  repeat apply Forall_cons_2; [..|apply Forall_nil_2].
  - unfold setup. repeat split; try by read_path.
    intros k Hk. cbn [get_path prop]. read_props. cbn [prop].
    read_props. cbn [prop]. by rewrite (Hother k Hk).
  - unfold chromiumheadless. repeat split; try by read_path.
    intros k Hk. cbn [get_path prop]. read_props. cbn [prop].
    read_props. cbn [prop]. by rewrite (Hother k Hk).
  - unfold chromiumProd. repeat split; try by read_path.
    intros k Hk. cbn [get_path prop]. read_props. cbn [prop].
    read_props. cbn [prop]. by rewrite (Hother k Hk).
Qed.

End PlaywrightConfig.

(** ** Two runs of the module *)

(** The imported defaults and device presets come from packages that may
    themselves consult the environment, so in the comparisons below each
    run has imports of its own. *)

Lemma evaluate_load A P d pj home dir rd p :
  evaluate A P d pj home dir rd p
  = load A P d pj home dir (rd (proc_cwd p)) (proc_env p).
Proof. reflexivity. Qed.

(** X10: what the module writes itself depends on the environment through
    [URL], [BEARER_TOKEN] and the home directory only, even when the imports
    differ between the two runs; with the same imports the two
    configurations are equal. *)
Theorem config_reads_three A1 P1 d1 A2 P2 d2 pj home dir env1 env2 :
  env1 !! "URL" = env2 !! "URL" →
  env1 !! "BEARER_TOKEN" = env2 !! "BEARER_TOKEN" →
  home env1 = home env2 →
  (∀ k, k ∈ ["testDir"; "webServer"] →
     prop k (config A1 P1 d1 home env1) = prop k (config A2 P2 d2 home env2))
  ∧ (∀ k, k ∈ ["trace"; "screenshot"; "headless"; "baseURL";
               "extraHTTPHeaders"] →
       get_path ["use"; k] (config A1 P1 d1 home env1)
       = get_path ["use"; k] (config A2 P2 d2 home env2))
  ∧ (d1 "Desktop Chrome" = d2 "Desktop Chrome" →
     prop "projects" (config A1 P1 d1 home env1)
     = prop "projects" (config A2 P2 d2 home env2))
  ∧ resolve pj dir env1 = resolve pj dir env2
  ∧ (A1 = A2 → P1 = P2 → d1 "Desktop Chrome" = d2 "Desktop Chrome" →
     config A1 P1 d1 home env1 = config A2 P2 d2 home env2).
Proof.
  intros HURL Htok Hhome. split; [|split; [|split; [|split]]].
  - intros k Hk. rewrite !elem_of_cons, elem_of_nil in Hk.
    destruct Hk as [-> | [-> | []]].
    + unfold config, defineConfig. cbn [prop]. by read_props.
    + rewrite !config_webServer. unfold webServer, BASE_URL.
      by rewrite HURL, Hhome.
  - intros k Hk. cbn [get_path]. rewrite !config_use.
    unfold use, BASE_URL, bearerToken. rewrite HURL, Htok. cbn [prop].
    rewrite !elem_of_cons, elem_of_nil in Hk.
    destruct Hk as [-> | [-> | [-> | [-> | [-> | []]]]]]; by read_props.
  - intros Hd. rewrite !config_projects.
    unfold projects, setup, chromiumheadless, chromiumProd. by rewrite Hd.
  - unfold resolve, BASE_URL, bearerToken. by rewrite HURL, Htok.
  - intros -> -> Hd.
    unfold config, use, webServer, projects, setup, chromiumheadless,
      chromiumProd, BASE_URL, bearerToken.
    by rewrite HURL, Htok, Hhome, Hd.
Qed.

(** X11: the token reaches the Authorization header and nothing else the
    module writes: two runs that agree on [URL] and the home directory
    agree on [testDir], [webServer], the other four [use] properties of the
    module, the base URL and the storage-state path, even when the imports
    differ; with the same imports the configurations agree everywhere
    outside [use.extraHTTPHeaders]. *)
Theorem token_confined A1 P1 d1 A2 P2 d2 pj home dir env1 env2 :
  env1 !! "URL" = env2 !! "URL" →
  home env1 = home env2 →
  (∀ k, k ∈ ["testDir"; "webServer"] →
     prop k (config A1 P1 d1 home env1) = prop k (config A2 P2 d2 home env2))
  ∧ (∀ k, k ∈ ["trace"; "screenshot"; "headless"; "baseURL"] →
       get_path ["use"; k] (config A1 P1 d1 home env1)
       = get_path ["use"; k] (config A2 P2 d2 home env2))
  ∧ Effective.baseUrl (resolve pj dir env1)
    = Effective.baseUrl (resolve pj dir env2)
  ∧ Effective.storageStatePath (resolve pj dir env1)
    = Effective.storageStatePath (resolve pj dir env2)
  ∧ (A1 = A2 → P1 = P2 → d1 "Desktop Chrome" = d2 "Desktop Chrome" →
     (∀ k, k ≠ "use" →
        prop k (config A1 P1 d1 home env1)
        = prop k (config A2 P2 d2 home env2))
     ∧ ∀ k, k ≠ "extraHTTPHeaders" →
         get_path ["use"; k] (config A1 P1 d1 home env1)
         = get_path ["use"; k] (config A2 P2 d2 home env2)).
Proof.
  intros HURL Hhome.
  assert (HB : BASE_URL env1 = BASE_URL env2).
  { unfold BASE_URL. by rewrite HURL. }
  split; [|split; [|split; [exact HB|split; [reflexivity|]]]].
  - intros k Hk. rewrite !elem_of_cons, elem_of_nil in Hk.
    destruct Hk as [-> | [-> | []]].
    + unfold config, defineConfig. cbn [prop]. by read_props.
    + rewrite !config_webServer. unfold webServer. by rewrite HB, Hhome.
  - intros k Hk. cbn [get_path]. rewrite !config_use.
    unfold use. rewrite HB. cbn [prop].
    rewrite !elem_of_cons, elem_of_nil in Hk.
    destruct Hk as [-> | [-> | [-> | [-> | []]]]]; by read_props.
  - intros -> -> Hd. split.
    + intros k Hk.
      assert (Hw : webServer home env1 = webServer home env2).
      { unfold webServer. by rewrite HB, Hhome. }
      assert (Hp : projects d1 = projects d2).
      { unfold projects, setup, chromiumheadless, chromiumProd.
        by rewrite Hd. }
      unfold config, defineConfig. cbn [prop]. rewrite Hw, Hp.
      unfold define_props. cbn [fold_left fst snd].
      rewrite !lookup_insert. repeat case_decide; congruence.
    + intros k Hk. cbn [get_path]. rewrite !config_use. unfold use.
      cbn [prop]. rewrite HB. unfold define_props.
      cbn [fold_left fst snd].
      rewrite !(lookup_insert_ne _ "extraHTTPHeaders") by done. done.
Qed.

(** ** The configuration on the sample installation *)

(** The module evaluated with the sample [.env] file: the empty [URL] of the
    file gives way to the default, the token of the file is read. *)
Example load_sample :
  (load Sample.AnacondaConfigDefaults Sample.AnacondaProjectDefaults
        Sample.devices Sample.path_join Sample.os_homedir Sample.dirname
        Sample.dotenv_file Sample.bare_env).2.1
  = {| Effective.baseUrl := "https://www.saucedemo.com";
       Effective.bearerToken := Some "s3cr3t";
       Effective.storageStatePath :=
         "/work/anaconda-cli-testing/playwright/.auth" |}.
Proof. vm_compute. reflexivity. Qed.

(** The runner launches all four sample projects headless. *)
Example effective_headless_sample :
  effective_headless Sample.AnacondaConfigDefaults
    Sample.AnacondaProjectDefaults Sample.devices Sample.os_homedir
    Sample.bare_env
  <$> projects Sample.devices
  = [JsBool true; JsBool true; JsBool true; JsBool true].
Proof. vm_compute. reflexivity. Qed.

Lemma baseUrl_default_witness :
  (Sample.bare_env !! "URL" = None ∨ Sample.bare_env !! "URL" = Some "")
  ∧ Effective.baseUrl (resolve Sample.path_join Sample.dirname Sample.bare_env)
    = "https://www.saucedemo.com".
Proof.
  split; [left; reflexivity|].
  apply (baseUrl_default Sample.path_join Sample.dirname Sample.bare_env).
  left. reflexivity.
Defined.

Lemma baseUrl_override_witness :
  Sample.staging_env !! "URL" = Some "https://example.test"
  ∧ Effective.baseUrl
      (resolve Sample.path_join Sample.dirname Sample.staging_env)
    = "https://example.test".
Proof.
  split; [reflexivity|].
  apply (baseUrl_override Sample.path_join Sample.dirname Sample.staging_env).
  reflexivity.
Defined.

Lemma authorization_unset_witness :
  Sample.bare_env !! "BEARER_TOKEN" = None
  ∧ get_path ["use"; "extraHTTPHeaders"; "Authorization"]
      (config Sample.AnacondaConfigDefaults Sample.AnacondaProjectDefaults
              Sample.devices Sample.os_homedir Sample.bare_env)
    = Some (JsString "Bearer undefined").
Proof.
  split; [reflexivity|].
  apply (authorization_unset Sample.AnacondaConfigDefaults
           Sample.AnacondaProjectDefaults Sample.devices Sample.os_homedir
           Sample.bare_env).
  reflexivity.
Defined.

(** C1 as stated fails: with [BEARER_TOKEN] unset the header is not the
    string [Bearer ] with an empty token. *)
Lemma authorization_unset_not_empty_token :
  Sample.bare_env !! "BEARER_TOKEN" = None
  ∧ get_path ["use"; "extraHTTPHeaders"; "Authorization"]
      (config Sample.AnacondaConfigDefaults Sample.AnacondaProjectDefaults
              Sample.devices Sample.os_homedir Sample.bare_env)
    ≠ Some (JsString "Bearer ").
Proof. split; [reflexivity|]. vm_compute. discriminate. Qed.

(** ** The further properties on the sample installation *)

Lemma process_URL_wins_witness :
  "https://example.test" ≠ ""
  ∧ Sample.staging_env !! "URL" = Some "https://example.test"
  ∧ Effective.baseUrl
      (load Sample.AnacondaConfigDefaults Sample.AnacondaProjectDefaults
            Sample.devices Sample.path_join Sample.os_homedir Sample.dirname
            Sample.staging_file Sample.staging_env).2.1
    = "https://example.test".
Proof.
  split; [discriminate|]. split; [reflexivity|].
  apply (process_URL_wins Sample.AnacondaConfigDefaults
           Sample.AnacondaProjectDefaults Sample.devices Sample.path_join
           Sample.os_homedir Sample.dirname Sample.staging_file
           Sample.staging_env "https://example.test");
    [discriminate|reflexivity].
Defined.

Lemma dotenv_URL_fills_witness :
  Sample.bare_env !! "URL" = None
  ∧ Effective.baseUrl
      (load Sample.AnacondaConfigDefaults Sample.AnacondaProjectDefaults
            Sample.devices Sample.path_join Sample.os_homedir Sample.dirname
            Sample.staging_file Sample.bare_env).2.1
    = "https://staging.example.test".
Proof.
  split; [reflexivity|].
  apply (dotenv_URL_fills Sample.AnacondaConfigDefaults
           Sample.AnacondaProjectDefaults Sample.devices Sample.path_join
           Sample.os_homedir Sample.dirname Sample.staging_file
           Sample.bare_env
           (<["BEARER_TOKEN" := "s3cr3t"]>
              {[ "URL" := "https://staging.example.test" ]})
           "https://staging.example.test");
    [reflexivity|reflexivity|reflexivity|discriminate].
Defined.

Lemma empty_process_URL_hides_file_witness :
  Sample.blank_url_env !! "URL" = Some ""
  ∧ Effective.baseUrl
      (load Sample.AnacondaConfigDefaults Sample.AnacondaProjectDefaults
            Sample.devices Sample.path_join Sample.os_homedir Sample.dirname
            Sample.staging_file Sample.blank_url_env).2.1
    = "https://www.saucedemo.com".
Proof.
  split; [reflexivity|].
  apply (empty_process_URL_hides_file Sample.AnacondaConfigDefaults
           Sample.AnacondaProjectDefaults Sample.devices Sample.path_join
           Sample.os_homedir Sample.dirname Sample.staging_file
           Sample.blank_url_env).
  reflexivity.
Defined.

Lemma token_after_load_witness :
  Sample.bare_env !! "BEARER_TOKEN" = None
  ∧ get_path ["use"; "extraHTTPHeaders"; "Authorization"]
      (load Sample.AnacondaConfigDefaults Sample.AnacondaProjectDefaults
            Sample.devices Sample.path_join Sample.os_homedir Sample.dirname
            Sample.dotenv_file Sample.bare_env).2.2
    = Some (JsString "Bearer s3cr3t").
Proof.
  split; [reflexivity|].
  apply (token_after_load Sample.AnacondaConfigDefaults
           Sample.AnacondaProjectDefaults Sample.devices Sample.path_join
           Sample.os_homedir Sample.dirname Sample.dotenv_file
           Sample.bare_env "s3cr3t").
  right. split; [reflexivity|].
  eexists. split; reflexivity.
Defined.

Lemma all_projects_launch_headless_witness :
  prop "headless" (Sample.devices "Desktop Chrome") = None
  ∧ Forall (λ p,
      effective_headless Sample.AnacondaConfigDefaults
        Sample.AnacondaProjectDefaults Sample.devices Sample.os_homedir
        Sample.bare_env p = JsBool true)
      (projects Sample.devices).
Proof.
  split; [reflexivity|].
  apply (all_projects_launch_headless Sample.AnacondaConfigDefaults
           Sample.AnacondaProjectDefaults Sample.devices Sample.os_homedir
           Sample.bare_env).
  reflexivity.
Defined.

Lemma projects_inherit_target_witness :
  prop "baseURL" (Sample.devices "Desktop Chrome") = None
  ∧ prop "extraHTTPHeaders" (Sample.devices "Desktop Chrome") = None
  ∧ Forall (λ p,
      Runner.project_use
        (config Sample.AnacondaConfigDefaults Sample.AnacondaProjectDefaults
                Sample.devices Sample.os_homedir Sample.token_env) p
        !! "baseURL"
      = Some (JsString (BASE_URL Sample.token_env))
      ∧ Runner.project_use
          (config Sample.AnacondaConfigDefaults
                  Sample.AnacondaProjectDefaults
                  Sample.devices Sample.os_homedir Sample.token_env) p
          !! "extraHTTPHeaders" ≫= prop "Authorization"
        = Some (JsString
                  ("Bearer "
                   ++ interpolate (Sample.token_env !! "BEARER_TOKEN"))))
      (projects Sample.devices).
Proof.
  split; [reflexivity|]. split; [reflexivity|].
  apply (projects_inherit_target Sample.AnacondaConfigDefaults
           Sample.AnacondaProjectDefaults Sample.devices Sample.os_homedir
           Sample.token_env);
    reflexivity.
Defined.

Lemma config_reads_three_witness :
  Sample.bare_env !! "URL" = (<["CI" := "1"]> Sample.bare_env) !! "URL"
  ∧ Sample.bare_env !! "BEARER_TOKEN"
    = (<["CI" := "1"]> Sample.bare_env) !! "BEARER_TOKEN"
  ∧ Sample.os_homedir Sample.bare_env
    = Sample.os_homedir (<["CI" := "1"]> Sample.bare_env)
  ∧ ∀ k, k ∈ ["testDir"; "webServer"] →
      prop k (config Sample.AnacondaConfigDefaults
                Sample.AnacondaProjectDefaults Sample.devices
                Sample.os_homedir Sample.bare_env)
      = prop k (config (JsObject ∅) (JsObject ∅) Sample.devices
                  Sample.os_homedir (<["CI" := "1"]> Sample.bare_env)).
Proof.
  split; [reflexivity|]. split; [reflexivity|]. split; [reflexivity|].
  destruct (config_reads_three Sample.AnacondaConfigDefaults
              Sample.AnacondaProjectDefaults Sample.devices
              (JsObject ∅) (JsObject ∅) Sample.devices
              Sample.path_join Sample.os_homedir Sample.dirname
              Sample.bare_env (<["CI" := "1"]> Sample.bare_env))
    as [Hown _]; first [exact Hown | reflexivity].
Defined.

Lemma token_confined_witness :
  Sample.bare_env !! "URL" = Sample.token_env !! "URL"
  ∧ Sample.os_homedir Sample.bare_env = Sample.os_homedir Sample.token_env
  ∧ ∀ k, k ∈ ["trace"; "screenshot"; "headless"; "baseURL"] →
      get_path ["use"; k]
        (config Sample.AnacondaConfigDefaults Sample.AnacondaProjectDefaults
                Sample.devices Sample.os_homedir Sample.bare_env)
      = get_path ["use"; k]
          (config (JsObject ∅) (JsObject ∅) Sample.devices
                  Sample.os_homedir Sample.token_env).
Proof.
  split; [reflexivity|]. split; [reflexivity|].
  destruct (token_confined Sample.AnacondaConfigDefaults
              Sample.AnacondaProjectDefaults Sample.devices
              (JsObject ∅) (JsObject ∅) Sample.devices
              Sample.path_join Sample.os_homedir Sample.dirname
              Sample.bare_env Sample.token_env)
    as (_ & Huse & _); first [exact Huse | reflexivity].
Defined.

(** C9 as stated fails: a runner started outside the directory of the
    module resolves the storage-state path under the directory of the
    module, not under its working directory. *)
Lemma storageStatePath_not_working_directory :
  Effective.storageStatePath
    (evaluate Sample.AnacondaConfigDefaults Sample.AnacondaProjectDefaults
              Sample.devices Sample.path_join Sample.os_homedir
              Sample.dirname Sample.read_dotenv Sample.elsewhere).2.1
  = "/work/anaconda-cli-testing/playwright/.auth"
  ∧ Effective.storageStatePath
      (evaluate Sample.AnacondaConfigDefaults Sample.AnacondaProjectDefaults
                Sample.devices Sample.path_join Sample.os_homedir
                Sample.dirname Sample.read_dotenv Sample.elsewhere).2.1
    ≠ Sample.path_join (proc_cwd Sample.elsewhere) "playwright/.auth".
Proof. split; [reflexivity|]. vm_compute. discriminate. Qed.

(** The two sample processes find different [.env] files and resolve
    different base URLs and tokens, and the same storage-state path. *)
Example evaluate_sample :
  (evaluate Sample.AnacondaConfigDefaults Sample.AnacondaProjectDefaults
            Sample.devices Sample.path_join Sample.os_homedir
            Sample.dirname Sample.read_dotenv Sample.at_home).2.1
  = {| Effective.baseUrl := "https://example.test";
       Effective.bearerToken := Some "s3cr3t";
       Effective.storageStatePath :=
         "/work/anaconda-cli-testing/playwright/.auth" |}
  ∧ (evaluate Sample.AnacondaConfigDefaults Sample.AnacondaProjectDefaults
              Sample.devices Sample.path_join Sample.os_homedir
              Sample.dirname Sample.read_dotenv Sample.elsewhere).2.1
    = {| Effective.baseUrl := "https://www.saucedemo.com";
         Effective.bearerToken := None;
         Effective.storageStatePath :=
           "/work/anaconda-cli-testing/playwright/.auth" |}.
Proof. split; vm_compute; reflexivity. Qed.
